(** * OrderForm: the purchase-order draft of GestionPedidoBCH

    A shallow embedding of [src/components/OrderForm.tsx]: the order-number
    generator, the supplier and product filters, the line-item composer, the
    removal of a line item, the supplier-change effect and the submission
    handler, with the properties of the order-draft state machine.

    Conventions of the embedding.
    - A JavaScript string is a [string]: the sequence of the bytes of its
      UTF-8 encoding.  On ASCII text this is the sequence of its UTF-16 code
      units.
    - A JavaScript number is a [Z].  This is exact for the integers of
      magnitude below 2^53 (units and amounts in pesos); fractions,
      infinities and rounding are outside the model.  [NaN] only arises from
      [parseInt], whose result is a [number].
    - A field of a [Partial<...>] object is an [option]: [None] is
      [undefined].
    - React state is passed explicitly: a handler is a function from the
      rendered state to the next state, [Date.now()] and the ISO time stamps
      are arguments, an uncaught exception is [Throw]. *)

From Stdlib Require Import ZArith List String Ascii Bool Lia DecimalString.
From Stdlib Require DecimalPos.
Import ListNotations.
Local Open Scope string_scope.
Local Open Scope Z_scope.

Set Implicit Arguments.

(** ** JavaScript built-ins used by the component *)

Module JS.

(** The result of [parseInt]: [NaN] or an integer. *)
Inductive number : Type :=
| NaN
| Int (z : Z).

(** [n + 1] on a [number]: [NaN + 1] is [NaN]. *)
Definition succ (n : number) : number :=
  match n with
  | NaN => NaN
  | Int z => Int (z + 1)
  end.

(** [String(n)] for an integer: decimal digits, ["-"] first when negative. *)
Definition string_of_Z (z : Z) : string :=
  NilZero.string_of_int (Z.to_int z).

(** [String(n)] on a [number]. *)
Definition String_ (n : number) : string :=
  match n with
  | NaN => "NaN"
  | Int z => string_of_Z z
  end.

(** [c.repeat(n)] for a one-character string. *)
Fixpoint repeat_char (c : ascii) (n : nat) : string :=
  match n with
  | O => EmptyString
  | S n' => String c (repeat_char c n')
  end.

(** [s.padStart(n, c)] with a one-character pad string: [s] itself when it
    has [n] characters or more, else [c] repeated in front up to length [n]. *)
Definition padStart (n : nat) (c : ascii) (s : string) : string :=
  repeat_char c (n - String.length s) ++ s.

(** Truthiness of a string: every string but the empty one. *)
Definition truthy_string (s : string) : bool :=
  match s with
  | EmptyString => false
  | String _ _ => true
  end.

(** Truthiness of an optional string: [undefined] and [''] are falsy. *)
Definition truthy_ostring (o : option string) : bool :=
  match o with
  | None => false
  | Some s => truthy_string s
  end.

(** Truthiness of a number: every integer but [0]. *)
Definition truthy_Z (z : Z) : bool := negb (z =? 0).

Definition truthy_oZ (o : option Z) : bool :=
  match o with
  | None => false
  | Some z => truthy_Z z
  end.

(** [a || b] on optional numbers: [a] when truthy, else [b]. *)
Definition or_Z (a : option Z) (b : Z) : Z :=
  match a with
  | Some z => if truthy_Z z then z else b
  | None => b
  end.

(** [a || b] on optional arrays: every array, also the empty one, is truthy. *)
Definition or_list (A : Type) (a : option (list A)) (b : list A) : list A :=
  match a with
  | Some l => l
  | None => b
  end.

(** [c] lower-cased, for the letters [A]..[Z] of ASCII. *)
Definition lower_ascii (c : ascii) : ascii :=
  let n := nat_of_ascii c in
  if (andb (Nat.leb 65 n) (Nat.leb n 90)) then ascii_of_nat (n + 32) else c.

(** [s.toLowerCase()] on the ASCII letters; the other bytes are kept. *)
Fixpoint toLowerCase (s : string) : string :=
  match s with
  | EmptyString => EmptyString
  | String c t => String (lower_ascii c) (toLowerCase t)
  end.

(** [s.startsWith(p)]. *)
Fixpoint startsWith (p s : string) : bool :=
  match p, s with
  | EmptyString, _ => true
  | String _ _, EmptyString => false
  | String a p', String b s' => andb (Ascii.eqb a b) (startsWith p' s')
  end.

(** [s.includes(sub)]: [sub] occurs in [s] as a substring. *)
Fixpoint includes (s sub : string) : bool :=
  orb (startsWith sub s)
      match s with
      | EmptyString => false
      | String _ t => includes t sub
      end.

(** [s.split(sep)] for a one-character separator: the pieces between the
    occurrences of [sep], in order; one piece more than occurrences. *)
Fixpoint split (sep : ascii) (s : string) : list string :=
  match s with
  | EmptyString => [EmptyString]
  | String c t =>
      if Ascii.eqb c sep then EmptyString :: split sep t
      else match split sep t with
           | [] => [String c EmptyString]
           | piece :: rest => String c piece :: rest
           end
  end.

(** White space skipped by [parseInt]: TAB, LF, VT, FF, CR and SPACE.  The
    white space outside ASCII (NBSP, the Unicode spaces, the byte order mark)
    is not recognised. *)
Definition is_space (c : ascii) : bool :=
  let n := nat_of_ascii c in
  orb (andb (Nat.leb 9 n) (Nat.leb n 13)) (Nat.eqb n 32).

Fixpoint trimStart (s : string) : string :=
  match s with
  | EmptyString => EmptyString
  | String c t => if is_space c then trimStart t else s
  end.

(** The value of [c] as a digit of radix [r], if it is one. *)
Definition digit_value (r : Z) (c : ascii) : option Z :=
  let n := Z.of_nat (nat_of_ascii c) in
  let v := if andb (48 <=? n) (n <=? 57) then Some (n - 48)
           else if andb (97 <=? n) (n <=? 122) then Some (n - 87)
           else if andb (65 <=? n) (n <=? 90) then Some (n - 55)
           else None in
  match v with
  | Some d => if d <? r then Some d else None
  | None => None
  end.

(** The longest prefix of radix-[r] digits of [s], read from the left with
    accumulator [acc]; [seen] tells whether a digit was read. *)
Fixpoint read_digits (r : Z) (s : string) (seen : bool) (acc : Z) : option Z :=
  match s with
  | EmptyString => if seen then Some acc else None
  | String c t =>
      match digit_value r c with
      | Some d => read_digits r t true (acc * r + d)
      | None => if seen then Some acc else None
      end
  end.

(** [parseInt(s)] with no radix argument: leading white space is skipped, an
    optional sign is read, a [0x] or [0X] prefix selects radix 16 (else 10),
    and the longest prefix of digits is the value; [NaN] when there is no
    digit. *)
Definition parseInt_string (s : string) : number :=
  let s1 := trimStart s in
  let '(sign, s2) :=
    match s1 with
    | String "-" t => (-1, t)
    | String "+" t => (1, t)
    | _ => (1, s1)
    end in
  let '(r, s3) :=
    match s2 with
    | String "0" (String "x" t) => (16, t)
    | String "0" (String "X" t) => (16, t)
    | _ => (10, s2)
    end in
  match read_digits r s3 false 0 with
  | Some v => Int (sign * v)
  | None => NaN
  end.

(** [parseInt(x)] where [x] may be [undefined]: the argument is first
    converted to a string, and [undefined] becomes ["undefined"]. *)
Definition parseInt (x : option string) : number :=
  match x with
  | Some s => parseInt_string s
  | None => parseInt_string "undefined"
  end.

End JS.

(** ** The order-number generator *)

(** [generateOrderNumber], lines 24-28; [lastOrderNumber] is the optional
    property of the component.  [!lastOrderNumber] holds for [undefined] and
    for the empty string. *)
Definition generateOrderNumber (lastOrderNumber : option string) : string :=
  match lastOrderNumber with
  | None => "ORD-001"
  | Some last =>
      if negb (JS.truthy_string last) then "ORD-001"
      else
        let currentNumber := JS.parseInt (nth_error (JS.split "-" last) 1) in
        "ORD-" ++ JS.padStart 3 "0" (JS.String_ (JS.succ currentNumber))
  end.

(** ** The data model *)

(** Modelled from the spec: the declarations of [Supplier], [Product],
    [OrderItem] and [Order] live in [src/types], which is not part of the
    sources at hand; the fields are those of the spec's data model, under the
    names the component reads and writes. *)
Record Supplier : Type := mkSupplier {
  s_id : string;
  s_name : string;
  s_insumo : string;
  s_rut : option string;
  s_email : option string;
  s_additionalInfo : option string
}.

Record Product : Type := mkProduct {
  p_id : string;
  p_name : string;
  p_price : Z;
  p_supplier : string;
  p_quantity : Z;
  p_unit : string;
  p_sku : string;
  p_category : string
}.

Record OrderItem : Type := mkOrderItem {
  productId : string;
  name : string;
  quantity : Z;
  price : Z;
  subtotal : Z
}.

Record StatusEntry : Type := mkStatusEntry {
  se_status : string;
  se_timestamp : string
}.

(** [Partial<Order>]: every field may be [undefined]. *)
Record Order : Type := mkOrder {
  orderNumber : option string;
  supplier : option string;
  status : option string;
  items : option (list OrderItem);
  total : option Z;
  createdAt : option string;
  estimatedDelivery : option string;
  deliveryAddress : option string;
  paymentMethod : option string;
  notes : option string;
  statusHistory : option (list StatusEntry)
}.

(** [Partial<OrderItem>] as the composer uses it: [productId] and [subtotal]
    are never set on the staged item, so only the three staged fields are
    kept. *)
Record NewItem : Type := mkNewItem {
  ni_name : option string;
  ni_quantity : option Z;
  ni_price : option Z
}.

(** The [useState] slices of the component, lines 16-53. *)
Record FormState : Type := mkFormState {
  suppliers : list Supplier;
  products : list Product;
  filteredProducts : list Product;
  showSupplierDropdown : bool;
  showProductDropdown : bool;
  supplierSearch : string;
  productSearch : string;
  formData : Order;
  newItem : NewItem
}.

(** Object spreads [{ ...o, field: v }]. *)
Definition with_supplier (o : Order) (v : option string) : Order :=
  mkOrder (orderNumber o) v (status o) (items o) (total o) (createdAt o)
          (estimatedDelivery o) (deliveryAddress o) (paymentMethod o)
          (notes o) (statusHistory o).

Definition with_estimatedDelivery (o : Order) (v : option string) : Order :=
  mkOrder (orderNumber o) (supplier o) (status o) (items o) (total o)
          (createdAt o) v (deliveryAddress o) (paymentMethod o)
          (notes o) (statusHistory o).

Definition with_deliveryAddress (o : Order) (v : option string) : Order :=
  mkOrder (orderNumber o) (supplier o) (status o) (items o) (total o)
          (createdAt o) (estimatedDelivery o) v (paymentMethod o)
          (notes o) (statusHistory o).

Definition with_paymentMethod (o : Order) (v : option string) : Order :=
  mkOrder (orderNumber o) (supplier o) (status o) (items o) (total o)
          (createdAt o) (estimatedDelivery o) (deliveryAddress o) v
          (notes o) (statusHistory o).

Definition with_notes (o : Order) (v : option string) : Order :=
  mkOrder (orderNumber o) (supplier o) (status o) (items o) (total o)
          (createdAt o) (estimatedDelivery o) (deliveryAddress o)
          (paymentMethod o) v (statusHistory o).

Definition with_items_total (o : Order) (l : list OrderItem) (t : Z) : Order :=
  mkOrder (orderNumber o) (supplier o) (status o) (Some l) (Some t)
          (createdAt o) (estimatedDelivery o) (deliveryAddress o)
          (paymentMethod o) (notes o) (statusHistory o).

Definition with_formData (st : FormState) (o : Order) : FormState :=
  mkFormState (suppliers st) (products st) (filteredProducts st)
              (showSupplierDropdown st) (showProductDropdown st)
              (supplierSearch st) (productSearch st) o (newItem st).

Definition with_newItem (st : FormState) (ni : NewItem) : FormState :=
  mkFormState (suppliers st) (products st) (filteredProducts st)
              (showSupplierDropdown st) (showProductDropdown st)
              (supplierSearch st) (productSearch st) (formData st) ni.

Definition with_suppliers (st : FormState) (l : list Supplier) : FormState :=
  mkFormState l (products st) (filteredProducts st)
              (showSupplierDropdown st) (showProductDropdown st)
              (supplierSearch st) (productSearch st) (formData st) (newItem st).

Definition with_products (st : FormState) (l : list Product) : FormState :=
  mkFormState (suppliers st) l (filteredProducts st)
              (showSupplierDropdown st) (showProductDropdown st)
              (supplierSearch st) (productSearch st) (formData st) (newItem st).

Definition with_filteredProducts (st : FormState) (l : list Product) : FormState :=
  mkFormState (suppliers st) (products st) l
              (showSupplierDropdown st) (showProductDropdown st)
              (supplierSearch st) (productSearch st) (formData st) (newItem st).

Definition with_showSupplierDropdown (st : FormState) (b : bool) : FormState :=
  mkFormState (suppliers st) (products st) (filteredProducts st)
              b (showProductDropdown st)
              (supplierSearch st) (productSearch st) (formData st) (newItem st).

Definition with_showProductDropdown (st : FormState) (b : bool) : FormState :=
  mkFormState (suppliers st) (products st) (filteredProducts st)
              (showSupplierDropdown st) b
              (supplierSearch st) (productSearch st) (formData st) (newItem st).

Definition with_supplierSearch (st : FormState) (s : string) : FormState :=
  mkFormState (suppliers st) (products st) (filteredProducts st)
              (showSupplierDropdown st) (showProductDropdown st)
              s (productSearch st) (formData st) (newItem st).

Definition with_productSearch (st : FormState) (s : string) : FormState :=
  mkFormState (suppliers st) (products st) (filteredProducts st)
              (showSupplierDropdown st) (showProductDropdown st)
              (supplierSearch st) s (formData st) (newItem st).

(** The address every new draft starts with, line 38. *)
Definition defaultDeliveryAddress : string := "Av. Camilo Henríquez 3692".

(** The initial [formData], lines 30-47.  [createdAt] and [stamp] are the
    results of the two calls of [new Date().toISOString()]. *)
Definition initialFormData (lastOrderNumber : option string)
    (created stamp : string) : Order :=
  {| orderNumber := Some (generateOrderNumber lastOrderNumber);
     supplier := Some "";
     status := Some "pending";
     items := Some [];
     total := Some 0;
     createdAt := Some created;
     estimatedDelivery := Some "";
     deliveryAddress := Some defaultDeliveryAddress;
     paymentMethod := Some "";
     notes := Some "";
     statusHistory := Some [ {| se_status := "pending"; se_timestamp := stamp |} ] |}.

(** The initial [newItem], lines 49-53. *)
Definition initialNewItem : NewItem :=
  {| ni_name := Some ""; ni_quantity := Some 1; ni_price := Some 0 |}.

(** The state of a freshly mounted form. *)
Definition initialState (lastOrderNumber : option string)
    (created stamp : string) : FormState :=
  {| suppliers := [];
     products := [];
     filteredProducts := [];
     showSupplierDropdown := false;
     showProductDropdown := false;
     supplierSearch := "";
     productSearch := "";
     formData := initialFormData lastOrderNumber created stamp;
     newItem := initialNewItem |}.

(** ** Exceptions *)

(** The [TypeError] of reading a property of [undefined]. *)
Inductive exn : Type :=
| TypeError.

Inductive outcome (A : Type) : Type :=
| Ok (a : A)
| Throw (e : exn).

Arguments Ok {A} a.
Arguments Throw {A} e.

(** ** The derived filters *)

(** [filteredSuppliers], lines 97-99. *)
Definition filteredSuppliers (st : FormState) : list Supplier :=
  filter (fun s => JS.includes (JS.toLowerCase (s_name s))
                               (JS.toLowerCase (supplierSearch st)))
         (suppliers st).

(** [searchFilteredProducts], lines 102-104. *)
Definition searchFilteredProducts (st : FormState) : list Product :=
  filter (fun p => JS.includes (JS.toLowerCase (p_name p))
                               (JS.toLowerCase (productSearch st)))
         (filteredProducts st).

(** The products of the supplier [name], the filter of lines 66-68. *)
Definition supplierProducts (name : string) (l : list Product) : list Product :=
  filter (fun p => String.eqb (JS.toLowerCase (p_supplier p))
                              (JS.toLowerCase name)) l.

(** The effect of lines 64-76, run after a render in which
    [formData.supplier] or [products] has changed. *)
Definition supplierEffect (st : FormState) : FormState :=
  let st1 :=
    match supplier (formData st) with
    | Some name =>
        if JS.truthy_string name
        then with_filteredProducts st (supplierProducts name (products st))
        else with_filteredProducts st []
    | None => with_filteredProducts st []
    end in
  let prev := newItem st1 in
  let st2 := with_newItem st1 (mkNewItem (Some "") (ni_quantity prev) (Some 0)) in
  with_productSearch st2 "".

(** ** The handlers *)

(** [handleSupplierSelect], lines 106-110. *)
Definition handleSupplierSelect (st : FormState) (supplierName : string) : FormState :=
  let st1 := with_formData st (with_supplier (formData st) (Some supplierName)) in
  let st2 := with_supplierSearch st1 supplierName in
  with_showSupplierDropdown st2 false.

(** The [onChange] of the supplier input, lines 192-196. *)
Definition onSupplierChange (st : FormState) (value : string) : FormState :=
  let st1 := with_supplierSearch st value in
  let st2 := with_formData st1 (with_supplier (formData st) (Some value)) in
  with_showSupplierDropdown st2 true.

(** [handleProductSelect], lines 112-120. *)
Definition handleProductSelect (st : FormState) (product : Product) : FormState :=
  let st1 := with_newItem st (mkNewItem (Some (p_name product))
                                        (ni_quantity (newItem st))
                                        (Some (p_price product))) in
  let st2 := with_productSearch st1 (p_name product) in
  with_showProductDropdown st2 false.

(** The [onChange] of the product input, lines 312-316. *)
Definition onProductChange (st : FormState) (value : string) : FormState :=
  let st1 := with_productSearch st value in
  let st2 := with_newItem st1 (mkNewItem (Some value)
                                         (ni_quantity (newItem st))
                                         (ni_price (newItem st))) in
  with_showProductDropdown st2 true.

(** The [onChange] of the quantity input, line 371. *)
Definition onQuantityChange (st : FormState) (value : Z) : FormState :=
  with_newItem st (mkNewItem (ni_name (newItem st)) (Some value)
                             (ni_price (newItem st))).

(** The [onChange] of the price input, line 383. *)
Definition onPriceChange (st : FormState) (value : Z) : FormState :=
  with_newItem st (mkNewItem (ni_name (newItem st))
                             (ni_quantity (newItem st)) (Some value)).

(** The [disabled] attribute of the add button, line 391. *)
Definition addItem_disabled (ni : NewItem) : bool :=
  negb (JS.truthy_ostring (ni_name ni))
  || negb (JS.truthy_oZ (ni_quantity ni))
  || negb (JS.truthy_oZ (ni_price ni)).

(** [addItem], lines 122-145; [now] is the value of [Date.now()].  The
    three staged fields are defined once the guard of line 123 is passed. *)
Definition addItem (now : Z) (st : FormState) : FormState :=
  match ni_name (newItem st), ni_quantity (newItem st), ni_price (newItem st) with
  | Some n, Some q, Some p =>
      if negb (JS.truthy_string n) || negb (JS.truthy_Z q) || negb (JS.truthy_Z p)
      then st
      else
        let item := {| productId := JS.string_of_Z now;
                       name := n;
                       quantity := q;
                       price := p;
                       subtotal := q * p |} in
        let prev := formData st in
        let st1 := with_formData st
                     (with_items_total prev
                        (JS.or_list (items prev) [] ++ [item])
                        (JS.or_Z (total prev) 0 + subtotal item)) in
        let st2 := with_newItem st1 (mkNewItem (Some "") (Some 1) (Some 0)) in
        with_productSearch st2 ""
  | _, _, _ => st
  end.

(** [a[i]] for a number [i]: [undefined] outside the indices of [a]. *)
Definition index_at (A : Type) (a : list A) (i : Z) : option A :=
  if i <? 0 then None else nth_error a (Z.to_nat i).

(** [a.filter((_, i) => keep i)], the indices counted from [from]. *)
Fixpoint filter_index (A : Type) (keep : Z -> bool) (from : Z) (a : list A) : list A :=
  match a with
  | [] => []
  | x :: t =>
      if keep from then x :: filter_index keep (from + 1) t
      else filter_index keep (from + 1) t
  end.

(** The updater that [removeItem] hands to [setFormData], lines 151-155:
    [formData] is the draft of the render in which the handler was created,
    [prev] the draft the update is applied to.  Reading [subtotal] of an
    [undefined] element throws. *)
Definition removeItem_update (formData0 : Order) (index : Z) (prev : Order) : outcome Order :=
  let items0 := JS.or_list (items formData0) [] in
  let removedItem := index_at items0 index in
  match removedItem with
  | None => Throw TypeError
  | Some r =>
      Ok (with_items_total prev
            (filter_index (fun i => negb (i =? index)) 0 items0)
            (JS.or_Z (total prev) 0 - subtotal r))
  end.

(** [removeItem], lines 147-156, as an event of the rendered state: the
    draft of the closure and the draft updated are the same. *)
Definition removeItem (index : Z) (st : FormState) : outcome FormState :=
  match removeItem_update (formData st) index (formData st) with
  | Ok o => Ok (with_formData st o)
  | Throw e => Throw e
  end.

(** ** Submission *)

(** What [handleSubmit] does to the outside, in order. *)
Inductive call : Type :=
| PreventDefault
| Alert (msg : string)
| OnSave (order : Order)
| OnClose.

(** [!formData.items?.length]. *)
Definition no_items (o : Order) : bool :=
  match items o with
  | None => true
  | Some l => negb (JS.truthy_Z (Z.of_nat (List.length l)))
  end.

(** [handleSubmit], lines 158-167. *)
Definition handleSubmit (o : Order) : list call :=
  if negb (JS.truthy_ostring (supplier o))
     || negb (JS.truthy_ostring (deliveryAddress o))
     || negb (JS.truthy_ostring (paymentMethod o))
     || no_items o
  then [PreventDefault; Alert "Por favor complete todos los campos requeridos"]
  else [PreventDefault; OnSave o; OnClose].

(** ** The events of the form *)

Inductive event : Type :=
| SuppliersLoaded (l : list Supplier)
| ProductsLoaded (l : list Product)
| SupplierTyped (value : string)
| SupplierFocused
| SupplierToggled
| SupplierSelected (supplierName : string)
| EstimatedDeliveryTyped (iso : string)
| DeliveryAddressTyped (value : string)
| PaymentMethodChosen (value : string)
| NotesTyped (value : string)
| ProductTyped (value : string)
| ProductFocused
| ProductToggled
| ProductSelected (product : Product)
| QuantityTyped (value : Z)
| PriceTyped (value : Z)
| AddItemClicked (now : Z)
| RemoveItemClicked (index : Z).

(** The handler of each event, on the rendered state.  The product input is
    disabled while no supplier is chosen (line 318) and the add button while
    the staged item is incomplete (line 391): a disabled control gives no
    event. *)
Definition handle (st : FormState) (ev : event) : outcome FormState :=
  match ev with
  | SuppliersLoaded l => Ok (with_suppliers st l)
  | ProductsLoaded l => Ok (with_products st l)
  | SupplierTyped v => Ok (onSupplierChange st v)
  | SupplierFocused => Ok (with_showSupplierDropdown st true)
  | SupplierToggled => Ok (with_showSupplierDropdown st (negb (showSupplierDropdown st)))
  | SupplierSelected n => Ok (handleSupplierSelect st n)
  | EstimatedDeliveryTyped iso =>
      Ok (with_formData st (with_estimatedDelivery (formData st) (Some iso)))
  | DeliveryAddressTyped v =>
      Ok (with_formData st (with_deliveryAddress (formData st) (Some v)))
  | PaymentMethodChosen v =>
      Ok (with_formData st (with_paymentMethod (formData st) (Some v)))
  | NotesTyped v =>
      Ok (with_formData st (with_notes (formData st) (Some v)))
  | ProductTyped v =>
      if JS.truthy_ostring (supplier (formData st))
      then Ok (onProductChange st v) else Ok st
  | ProductFocused =>
      if JS.truthy_ostring (supplier (formData st))
      then Ok (with_showProductDropdown st true) else Ok st
  | ProductToggled =>
      if JS.truthy_ostring (supplier (formData st))
      then Ok (with_showProductDropdown st (negb (showProductDropdown st)))
      else Ok st
  | ProductSelected p => Ok (handleProductSelect st p)
  | QuantityTyped v => Ok (onQuantityChange st v)
  | PriceTyped v => Ok (onPriceChange st v)
  | AddItemClicked now =>
      if addItem_disabled (newItem st) then Ok st else Ok (addItem now st)
  | RemoveItemClicked i => removeItem i st
  end.

Definition ostring_eqb (a b : option string) : bool :=
  match a, b with
  | None, None => true
  | Some x, Some y => String.eqb x y
  | _, _ => false
  end.

(** Whether a dependency of the effect of lines 64-76 changed: the supplier
    as a string, the product list as an object, which only [setProducts]
    replaces. *)
Definition deps_changed (before : FormState) (ev : event) (after : FormState) : bool :=
  match ev with
  | ProductsLoaded _ => true
  | _ => negb (ostring_eqb (supplier (formData before)) (supplier (formData after)))
  end.

(** One event: its handler, the render, and the effect when due. *)
Definition step (st : FormState) (ev : event) : outcome FormState :=
  match handle st ev with
  | Ok st' => Ok (if deps_changed st ev st' then supplierEffect st' else st')
  | Throw e => Throw e
  end.

(** A sequence of events, stopped by the first exception. *)
Fixpoint run (st : FormState) (evs : list event) : outcome FormState :=
  match evs with
  | [] => Ok st
  | ev :: rest =>
      match step st ev with
      | Ok st' => run st' rest
      | Throw e => Throw e
      end
  end.

(** ** Vocabulary of the properties *)

(** The character of the decimal digit [d]. *)
Definition digit_char (d : Z) : ascii := ascii_of_nat (48 + Z.to_nat d).

(** The three decimal digits of [n], for [0 <= n < 1000]. *)
Definition three_digits (n : Z) : string :=
  String (digit_char (n / 100))
    (String (digit_char ((n / 10) mod 10))
       (String (digit_char (n mod 10)) EmptyString)).

(** The order numbers of the format [ORD-###]. *)
Definition ord_format (n : Z) : string := "ORD-" ++ three_digits n.


(** The generator on the format [ORD-###], checked on its thousand
    instances. *)
Definition next_of_format_ok (n : nat) : bool :=
  String.eqb (generateOrderNumber (Some (ord_format (Z.of_nat n))))
             ("ORD-" ++ JS.padStart 3 "0" (JS.string_of_Z (Z.of_nat n + 1)))
  && (if (Z.of_nat n + 1 <? 1000)
      then String.eqb (generateOrderNumber (Some (ord_format (Z.of_nat n))))
                      (ord_format (Z.of_nat n + 1))
      else true).

(** [c] occurs in [s]. *)
Fixpoint has_char (c : ascii) (s : string) : bool :=
  match s with
  | EmptyString => false
  | String a t => orb (Ascii.eqb a c) (has_char c t)
  end.


(** The total and the items of a draft as the handlers read them:
    [total || 0] and [items || []]. *)
Definition total_of (o : Order) : Z :=
  match total o with
  | Some t => t
  | None => 0
  end.

Definition items_of (o : Order) : list OrderItem :=
  match items o with
  | Some l => l
  | None => []
  end.





(** A supplier of which only the name matters. *)
Definition supplier_named (n : string) : Supplier :=
  {| s_id := n; s_name := n; s_insumo := ""; s_rut := None; s_email := None;
     s_additionalInfo := None |}.

(** A required text field is empty: [undefined] or the empty string. *)
Definition empty_field (o : option string) : Prop :=
  o = None \/ o = Some "".

(** The validation of [handleSubmit] fails. *)
Definition incomplete (o : Order) : Prop :=
  empty_field (supplier o) \/ empty_field (deliveryAddress o)
  \/ empty_field (paymentMethod o) \/ items_of o = [].

(** The message of the alert of line 161. *)
Definition required_fields_message : string :=
  "Por favor complete todos los campos requeridos".

(** The event changes the delivery address. *)
Definition types_address (ev : event) : bool :=
  match ev with
  | DeliveryAddressTyped _ => true
  | _ => false
  end.

(** The state of the supplier picker of the example: three suppliers and
    the search string [search]. *)
Definition picker_example (search : string) : FormState :=
  with_supplierSearch
    (with_suppliers (initialState None "" "")
       [supplier_named "Acme Foods"; supplier_named "Ace Hardware";
        supplier_named "Best Co"])
    search.

(** The state of the example: a draft with one item of subtotal 200 and
    total 200, and a staged item of quantity 3 at price 1500. *)
Definition staged_example : FormState :=
  with_newItem
    (with_formData (initialState (Some "ORD-007") "" "")
       (with_items_total (initialFormData (Some "ORD-007") "" "")
          [mkOrderItem "1" "Harina" 2 100 200] 200))
    (mkNewItem (Some "Azucar") (Some 3) (Some 1500)).

(** A product of the supplier ["Molino"], and a session that loads it,
    selects the supplier, stages three units of the product, adds the item
    and removes it again. *)
Definition harina : Product :=
  {| p_id := "p1"; p_name := "Harina"; p_price := 1500; p_supplier := "Molino";
     p_quantity := 10; p_unit := "kg"; p_sku := "H-1"; p_category := "secos" |}.

Definition example_events : list event :=
  [ProductsLoaded [harina]; SupplierSelected "Molino"; ProductSelected harina;
   QuantityTyped 3; AddItemClicked 1; RemoveItemClicked 0].

(** A product of a second supplier, and the form after the catalogue is
    loaded, ["Molino"] is selected and [harina] is staged. *)
Definition azucar : Product :=
  {| p_id := "p2"; p_name := "Azucar"; p_price := 900; p_supplier := "DULCES SA";
     p_quantity := 4; p_unit := "kg"; p_sku := "A-1"; p_category := "secos" |}.

Definition staged_harina : FormState :=
  handleProductSelect
    (supplierEffect
       (handleSupplierSelect
          (supplierEffect (with_products (initialState None "" "") [harina; azucar]))
          "Molino"))
    harina.

(** A draft with every required field filled. *)
Definition complete_example : Order :=
  with_paymentMethod
    (with_supplier
       (with_items_total (initialFormData None "" "")
          [mkOrderItem "1" "Harina" 3 1500 4500] 4500)
       (Some "Molino"))
    (Some "Efectivo").

(** The order numbers of a history that starts empty: each is generated
    from the one before. *)
Fixpoint nth_order_number (k : nat) : option string :=
  match k with
  | O => None
  | S k' => Some (generateOrderNumber (nth_order_number k'))
  end.

(** [s] starts with the prefix [0x] or [0X] of a hexadecimal numeral. *)
Definition hex_prefix (s : string) : bool :=
  match s with
  | String "0" (String "x" _) => true
  | String "0" (String "X" _) => true
  | _ => false
  end.

(** [s] starts with a decimal digit. *)
Definition starts_with_digit (s : string) : bool :=
  match s with
  | EmptyString => false
  | String c _ =>
      match JS.digit_value 10 c with
      | Some _ => true
      | None => false
      end
  end.

(** The supplier whose details the form shows, lines 276-281: the first
    of the list whose name is the draft's supplier, compared as it is. *)
Definition selectedSupplier (st : FormState) : option Supplier :=
  match supplier (formData st) with
  | Some v =>
      if JS.truthy_string v
      then find (fun s => String.eqb (s_name s) v) (suppliers st)
      else None
  | None => None
  end.

(** The indices that the remove buttons of the item list pass to
    [removeItem], lines 401-415: those of [formData.items?.map]. *)
Definition removeButtons (o : Order) : list Z :=
  match items o with
  | Some l => map Z.of_nat (seq 0 (List.length l))
  | None => []
  end.



(** The fields of the draft that no handler writes. *)
Definition fixed_fields (o : Order) :
    option string * option string * option string * option (list StatusEntry) :=
  (orderNumber o, status o, createdAt o, statusHistory o).




(** ** String lemmas *)

Section StringFacts.

Lemma startsWith_spec (p s : string) :
  JS.startsWith p s = true <-> exists post, s = p ++ post.
Proof.
  revert s; induction p as [|a p IH]; intros s; simpl.
  - split; [intros _; exists s; reflexivity | reflexivity].
  - destruct s as [|b s].
    + split; [discriminate | intros [post H]; discriminate].
    + rewrite andb_true_iff, Ascii.eqb_eq, IH. split.
      * intros [-> [post ->]]. exists post. reflexivity.
      * intros [post H]. injection H as -> ->. split; [reflexivity | eauto].
Qed.

Lemma includes_spec (s sub : string) :
  JS.includes s sub = true <-> exists pre post, s = pre ++ sub ++ post.
Proof.
  induction s as [|c s IH].
  - simpl. rewrite orb_false_r, startsWith_spec. split.
    + intros [post H]. exists "", post. exact H.
    + intros [pre [post H]]. destruct pre; [exists post; exact H | discriminate].
  - cbn [JS.includes]. rewrite orb_true_iff, startsWith_spec, IH. split.
    + intros [[post H] | [pre [post H]]].
      * exists "", post. exact H.
      * exists (String c pre), post. simpl. rewrite H. reflexivity.
    + intros [pre [post H]]. destruct pre as [|a pre].
      * left. exists post. exact H.
      * right. simpl in H. injection H as _ H. exists pre, post. exact H.
Qed.

Lemma includes_empty (s : string) : JS.includes s "" = true.
Proof. destruct s; reflexivity. Qed.

Lemma split_no_sep (sep : ascii) (s : string) :
  has_char sep s = false -> JS.split sep s = [s].
Proof.
  induction s as [|c s IH]; simpl; [reflexivity|].
  intros H. apply orb_false_iff in H as [Hc Hs].
  rewrite Hc, (IH Hs). reflexivity.
Qed.

Lemma split_app_sep (sep : ascii) (a b : string) :
  has_char sep a = false ->
  JS.split sep (a ++ String sep b) = a :: JS.split sep b.
Proof.
  induction a as [|c a IH]; simpl.
  - intros _. rewrite Ascii.eqb_refl. reflexivity.
  - intros H. apply orb_false_iff in H as [Hc Ha].
    rewrite Hc, (IH Ha). reflexivity.
Qed.

Lemma split_nonempty (sep : ascii) (s : string) : JS.split sep s <> [].
Proof.
  destruct s as [|c s]; simpl; [discriminate|].
  destruct (Ascii.eqb c sep); [discriminate|].
  destruct (JS.split sep s); discriminate.
Qed.



End StringFacts.

(** ** The order-number generator: properties *)

Example ord_format_7 : ord_format 7 = "ORD-007" /\ ord_format 120 = "ORD-120".
Proof. split; reflexivity. Qed.

Lemma next_of_format_all : forallb next_of_format_ok (seq 0 1000) = true.
Proof. vm_compute. reflexivity. Qed.

Lemma next_of_format (n : Z) :
  0 <= n < 1000 -> next_of_format_ok (Z.to_nat n) = true.
Proof.
  intros Hn.
  pose proof next_of_format_all as H.
  rewrite forallb_forall in H. apply H.
  apply in_seq. lia.
Qed.

(** C4: with no previous order number the generator returns ["ORD-001"];
    on a previous number [ORD-###] it reads the three digits as the number
    [n], and returns ["ORD-"] followed by [n + 1] padded with zeros to three
    digits (the three digits of [n + 1] while it is below 1000); so
    ["ORD-007"] gives ["ORD-008"] and ["ORD-099"] gives ["ORD-100"]. *)
Theorem generateOrderNumber_next :
  generateOrderNumber None = "ORD-001"
  /\ (forall n, 0 <= n < 1000 ->
        generateOrderNumber (Some (ord_format n))
        = "ORD-" ++ JS.padStart 3 "0" (JS.string_of_Z (n + 1)))
  /\ (forall n, 0 <= n < 999 ->
        generateOrderNumber (Some (ord_format n)) = ord_format (n + 1))
  /\ generateOrderNumber (Some "ORD-007") = "ORD-008"
  /\ generateOrderNumber (Some "ORD-099") = "ORD-100".
Proof.
  split; [reflexivity|].
  split.
  { intros n Hn. pose proof (next_of_format Hn) as H.
    unfold next_of_format_ok in H. rewrite Z2Nat.id in H by lia.
    apply andb_true_iff in H as [H _]. apply String.eqb_eq in H. exact H. }
  split.
  { intros n Hn. assert (Hn' : 0 <= n < 1000) by lia.
    pose proof (next_of_format Hn') as H.
    unfold next_of_format_ok in H. rewrite Z2Nat.id in H by lia.
    apply andb_true_iff in H as [_ H].
    destruct (Z.ltb_spec (n + 1) 1000) as [_|Hge]; [|lia].
    apply String.eqb_eq in H. exact H. }
  split; reflexivity.
Qed.

(** The generator at [ORD-041], through [generateOrderNumber_next]. *)
Lemma generateOrderNumber_next_witness :
  generateOrderNumber (Some (ord_format 41)) = ord_format 42.
Proof.
  apply (proj1 (proj2 (proj2 generateOrderNumber_next)) 41). lia.
Defined.




(** ** The supplier picker *)



(** ** Submission: properties *)

Lemma truthy_ostring_false (o : option string) :
  JS.truthy_ostring o = false <-> empty_field o.
Proof.
  unfold empty_field. destruct o as [[|c s]|]; simpl; split; intros H;
    try discriminate; auto; destruct H as [H|H]; discriminate.
Qed.

Lemma no_items_true (o : Order) : no_items o = true <-> items_of o = [].
Proof.
  unfold no_items, items_of.
  destruct (items o) as [[|x l]|]; simpl; split; intros H;
    try reflexivity; try discriminate.
Qed.

Lemma incomplete_dec (o : Order) :
  (negb (JS.truthy_ostring (supplier o))
   || negb (JS.truthy_ostring (deliveryAddress o))
   || negb (JS.truthy_ostring (paymentMethod o))
   || no_items o) = true <-> incomplete o.
Proof.
  unfold incomplete.
  rewrite !orb_true_iff, !negb_true_iff, !truthy_ostring_false, no_items_true.
  tauto.
Qed.

(** The two outcomes of [handleSubmit]. *)
Lemma handleSubmit_cases (o : Order) :
  (incomplete o ->
   handleSubmit o = [PreventDefault; Alert required_fields_message])
  /\ (~ incomplete o ->
      handleSubmit o = [PreventDefault; OnSave o; OnClose]).
Proof.
  pose proof (incomplete_dec o) as D.
  unfold handleSubmit.
  destruct (negb (JS.truthy_ostring (supplier o))
            || negb (JS.truthy_ostring (deliveryAddress o))
            || negb (JS.truthy_ostring (paymentMethod o))
            || no_items o) eqn:E.
  - split; [reflexivity|]. intros H. exfalso. apply H, D. reflexivity.
  - split; [|reflexivity]. intros H. apply D in H. discriminate.
Qed.

Lemma incomplete_decidable (o : Order) : incomplete o \/ ~ incomplete o.
Proof.
  pose proof (incomplete_dec o) as D.
  destruct (negb (JS.truthy_ostring (supplier o))
            || negb (JS.truthy_ostring (deliveryAddress o))
            || negb (JS.truthy_ostring (paymentMethod o))
            || no_items o).
  - left. apply D. reflexivity.
  - right. intros H. apply D in H. discriminate.
Qed.

Lemma handleSubmit_accepts (o : Order) :
  handleSubmit o = [PreventDefault; OnSave o; OnClose] <-> ~ incomplete o.
Proof.
  destruct (handleSubmit_cases o) as [Hno Hyes]. split.
  - intros H I. rewrite (Hno I) in H. discriminate.
  - exact Hyes.
Qed.

Lemma handleSubmit_rejects (o : Order) :
  handleSubmit o = [PreventDefault; Alert required_fields_message]
  <-> incomplete o.
Proof.
  destruct (handleSubmit_cases o) as [Hno Hyes]. split.
  - intros H. destruct (incomplete_decidable o) as [I|I]; [exact I|].
    rewrite (Hyes I) in H. discriminate.
  - exact Hno.
Qed.

(** The four conditions, one at a time, on [complete_example]. *)
Example handleSubmit_four_fields :
  handleSubmit complete_example
  = [PreventDefault; OnSave complete_example; OnClose]
  /\ handleSubmit (with_supplier complete_example (Some ""))
     = [PreventDefault; Alert required_fields_message]
  /\ handleSubmit (with_deliveryAddress complete_example (Some ""))
     = [PreventDefault; Alert required_fields_message]
  /\ handleSubmit (with_paymentMethod complete_example (Some ""))
     = [PreventDefault; Alert required_fields_message]
  /\ handleSubmit (with_items_total complete_example [] 0)
     = [PreventDefault; Alert required_fields_message].
Proof. repeat split; reflexivity. Qed.

(** C3: [handleSubmit] alerts, without calling [onSave] or [onClose],
    exactly when the supplier, the delivery address or the payment method is
    empty or there is no item; otherwise it calls [onSave] with the draft and
    then [onClose]. *)
Theorem handleSubmit_validation (o : Order) :
  (handleSubmit o = [PreventDefault; Alert required_fields_message]
   <-> incomplete o)
  /\ (handleSubmit o = [PreventDefault; OnSave o; OnClose]
      <-> ~ incomplete o)
  /\ (incomplete o ->
      (forall order, ~ In (OnSave order) (handleSubmit o))
      /\ ~ In OnClose (handleSubmit o)).
Proof.
  split; [apply handleSubmit_rejects|].
  split; [apply handleSubmit_accepts|].
  intros I. apply handleSubmit_rejects in I. rewrite I. split.
  - intros order [H|[H|[]]]; discriminate.
  - intros [H|[H|[]]]; discriminate.
Qed.

(** ** Line items: lemmas *)

Section LineItems.

Lemma or_Z_total (o : Order) : JS.or_Z (total o) 0 = total_of o.
Proof.
  unfold JS.or_Z, total_of, JS.truthy_Z.
  destruct (total o) as [t|]; [|reflexivity].
  destruct (Z.eqb_spec t 0) as [->|_]; reflexivity.
Qed.

Lemma or_list_items (o : Order) : JS.or_list (items o) [] = items_of o.
Proof. reflexivity. Qed.



Lemma filter_index_keep_all (A : Type) (l : list A) (from index : Z) :
  index < from ->
  filter_index (fun i => negb (i =? index)) from l = l.
Proof.
  revert from; induction l as [|x l IH]; intros from H; simpl; [reflexivity|].
  destruct (Z.eqb_spec from index) as [E|_]; [lia|].
  simpl. rewrite IH by lia. reflexivity.
Qed.

Lemma filter_index_remove (A : Type) (l : list A) (from : Z) (k : nat) :
  (k < List.length l)%nat ->
  filter_index (fun i => negb (i =? from + Z.of_nat k)) from l
  = (firstn k l ++ skipn (S k) l)%list.
Proof.
  revert from k; induction l as [|x l IH]; intros from k H; simpl in H; [lia|].
  destruct k as [|k].
  - cbn [filter_index firstn skipn app]. replace (from + Z.of_nat 0) with from by lia.
    rewrite Z.eqb_refl. cbn [negb].
    apply filter_index_keep_all. lia.
  - cbn [filter_index firstn skipn app].
    destruct (Z.eqb_spec from (from + Z.of_nat (S k))) as [E|_]; [lia|].
    cbn [negb]. f_equal.
    replace (from + Z.of_nat (S k)) with (from + 1 + Z.of_nat k) by lia.
    apply IH. lia.
Qed.

Lemma index_at_in_range (A : Type) (l : list A) (i : Z) :
  0 <= i < Z.of_nat (List.length l) ->
  exists x, index_at l i = Some x /\ nth_error l (Z.to_nat i) = Some x.
Proof.
  intros H. unfold index_at.
  destruct (Z.ltb_spec i 0) as [Hneg|_]; [lia|].
  destruct (nth_error l (Z.to_nat i)) as [x|] eqn:E.
  - exists x. split; reflexivity.
  - apply nth_error_None in E. lia.
Qed.

Lemma index_at_out_of_range (A : Type) (l : list A) (i : Z) :
  i < 0 \/ Z.of_nat (List.length l) <= i -> index_at l i = None.
Proof.
  intros H. unfold index_at.
  destruct (Z.ltb_spec i 0) as [_|Hpos]; [reflexivity|].
  apply nth_error_None. lia.
Qed.


(** [removeItem] at an index of the list. *)
Lemma removeItem_ok (st : FormState) (i : Z) (r : OrderItem) :
  0 <= i ->
  nth_error (items_of (formData st)) (Z.to_nat i) = Some r ->
  removeItem i st
  = Ok (with_formData st
          (with_items_total (formData st)
             (firstn (Z.to_nat i) (items_of (formData st))
              ++ skipn (S (Z.to_nat i)) (items_of (formData st)))
             (total_of (formData st) - subtotal r))).
Proof.
  intros Hi Hr.
  unfold removeItem, removeItem_update.
  rewrite or_list_items, or_Z_total.
  unfold index_at. destruct (Z.ltb_spec i 0) as [Hneg|_]; [lia|].
  rewrite Hr.
  replace (fun i0 : Z => negb (i0 =? i))
    with (fun i0 : Z => negb (i0 =? 0 + Z.of_nat (Z.to_nat i))).
  - rewrite filter_index_remove; [reflexivity|].
    apply nth_error_Some. rewrite Hr. discriminate.
  - rewrite Z2Nat.id by lia. reflexivity.
Qed.

(** [addItem] when the staged item is complete. *)
Lemma addItem_ok (now : Z) (st : FormState) (n : string) (q p : Z) :
  newItem st = mkNewItem (Some n) (Some q) (Some p) ->
  n <> "" -> q <> 0 -> p <> 0 ->
  addItem now st
  = with_productSearch
      (with_newItem
         (with_formData st
            (with_items_total (formData st)
               (items_of (formData st)
                ++ [mkOrderItem (JS.string_of_Z now) n q p (q * p)])
               (total_of (formData st) + q * p)))
         (mkNewItem (Some "") (Some 1) (Some 0)))
      "".
Proof.
  intros Hni Hn Hq Hp. unfold addItem. rewrite Hni. cbn [ni_name ni_quantity ni_price].
  destruct n as [|c n]; [congruence|]. cbn [JS.truthy_string negb orb].
  unfold JS.truthy_Z.
  destruct (Z.eqb_spec q 0) as [E|_]; [congruence|].
  destruct (Z.eqb_spec p 0) as [E|_]; [congruence|].
  cbn [negb orb subtotal]. rewrite or_list_items, or_Z_total. reflexivity.
Qed.

Lemma addItem_disabled_false (ni : NewItem) :
  addItem_disabled ni = false <->
  exists n q p, ni = mkNewItem (Some n) (Some q) (Some p)
                /\ n <> "" /\ q <> 0 /\ p <> 0.
Proof.
  unfold addItem_disabled. destruct ni as [[n|] [q|] [p|]]; simpl;
    try (split; [try discriminate; rewrite ?orb_true_r; discriminate
                | intros (n' & q' & p' & H & _); discriminate]).
  rewrite !orb_false_iff, !negb_false_iff. unfold JS.truthy_Z.
  rewrite !negb_true_iff, !Z.eqb_neq. split.
  - intros [[Hn Hq] Hp]. exists n, q, p. repeat split; try assumption.
    intros ->. discriminate.
  - intros (n' & q' & p' & H & Hn & Hq & Hp). injection H as <- <- <-.
    repeat split; try assumption. destruct n; [congruence | reflexivity].
Qed.


End LineItems.

(** ** Adding and removing a line item *)





(** C9: outside the indices of the item list, [items[index]] is
    [undefined] and reading its [subtotal] throws: [removeItem] does not
    return the draft unchanged. *)
Theorem removeItem_out_of_range (st : FormState) (i : Z) :
  i < 0 \/ Z.of_nat (List.length (items_of (formData st))) <= i ->
  index_at (items_of (formData st)) i = None
  /\ removeItem i st = Throw TypeError
  /\ step st (RemoveItemClicked i) = Throw TypeError
  /\ removeItem i st <> Ok st.
Proof.
  intros H.
  pose proof (index_at_out_of_range (items_of (formData st)) H) as Hidx.
  assert (Hrm : removeItem i st = Throw TypeError).
  { unfold removeItem, removeItem_update. rewrite or_list_items, Hidx.
    reflexivity. }
  split; [exact Hidx|]. split; [exact Hrm|]. split.
  - unfold step, handle. rewrite Hrm. reflexivity.
  - rewrite Hrm. discriminate.
Qed.

(** Removal at index 1 and at index -1 of the one-item draft
    [staged_example], through [removeItem_out_of_range]. *)
Lemma removeItem_out_of_range_witness :
  removeItem 1 staged_example = Throw TypeError
  /\ removeItem (-1) staged_example = Throw TypeError.
Proof.
  split.
  - apply (removeItem_out_of_range staged_example (i := 1)). right. cbn. lia.
  - apply (removeItem_out_of_range staged_example (i := -1)). left. lia.
Defined.

(** ** The draft along a sequence of events *)

Section Invariants.

Lemma supplierEffect_formData (st : FormState) :
  formData (supplierEffect st) = formData st.
Proof.
  unfold supplierEffect.
  destruct (supplier (formData st)) as [n|]; [destruct (JS.truthy_string n)|];
    reflexivity.
Qed.

(** The effect run at mount leaves the initial state as it is. *)
Lemma supplierEffect_initial (last : option string) (created stamp : string) :
  supplierEffect (initialState last created stamp)
  = initialState last created stamp.
Proof. reflexivity. Qed.

Lemma step_formData (st st' : FormState) (ev : event) :
  step st ev = Ok st' ->
  exists st1, handle st ev = Ok st1 /\ formData st' = formData st1.
Proof.
  unfold step. destruct (handle st ev) as [st1|e]; [|discriminate].
  intros H. injection H as <-. exists st1. split; [reflexivity|].
  destruct (deps_changed st ev st1); [apply supplierEffect_formData | reflexivity].
Qed.








End Invariants.



(** ** The supplier-change effect *)



Lemma filter_all (A : Type) (f : A -> bool) (l : list A) :
  (forall x, f x = true) -> filter f l = l.
Proof.
  intros H. induction l as [|x l IH]; simpl; [reflexivity|].
  rewrite H, IH. reflexivity.
Qed.




(** ** The default delivery address *)

Section DeliveryAddress.

Lemma step_deliveryAddress (st st' : FormState) (ev : event) :
  types_address ev = false -> step st ev = Ok st' ->
  deliveryAddress (formData st') = deliveryAddress (formData st).
Proof.
  intros Hev Hstep.
  apply step_formData in Hstep as (st1 & Hh & ->).
  destruct ev; cbn [handle] in Hh; try discriminate Hev;
    try (injection Hh as <-; reflexivity);
    try (destruct (JS.truthy_ostring (supplier (formData st)));
         injection Hh as <-; reflexivity).
  - destruct (addItem_disabled (newItem st)) eqn:E.
    + injection Hh as <-. reflexivity.
    + injection Hh as <-.
      apply addItem_disabled_false in E as (n & q & p & Hni & Hn & Hq & Hp).
      rewrite (addItem_ok now st Hni Hn Hq Hp). reflexivity.
  - unfold removeItem, removeItem_update in Hh.
    destruct (index_at (JS.or_list (items (formData st)) []) index);
      [|discriminate].
    injection Hh as <-. reflexivity.
Qed.

Lemma run_deliveryAddress (evs : list event) (st st' : FormState) :
  existsb types_address evs = false -> run st evs = Ok st' ->
  deliveryAddress (formData st') = deliveryAddress (formData st).
Proof.
  revert st; induction evs as [|ev evs IH]; intros st Hevs Hrun.
  - injection Hrun as <-. reflexivity.
  - cbn [existsb] in Hevs. apply orb_false_iff in Hevs as [Hev Hrest].
    cbn [run] in Hrun. destruct (step st ev) as [st1|e] eqn:Hs; [|discriminate].
    rewrite (IH st1 Hrest Hrun). eapply step_deliveryAddress; eassumption.
Qed.

End DeliveryAddress.

(** C10: a fresh draft has the delivery address
    ["Av. Camilo Henríquez 3692"], which is not empty; as long as no event
    types into the address field the address stays, and [handleSubmit]
    accepts exactly when supplier, payment method and items are there;
    clearing the field makes [handleSubmit] refuse. *)
Theorem initial_deliveryAddress
    (lastOrderNumber : option string) (created stamp : string) :
  deliveryAddress (initialFormData lastOrderNumber created stamp)
  = Some "Av. Camilo Henríquez 3692"
  /\ ~ empty_field (deliveryAddress (initialFormData lastOrderNumber created stamp))
  /\ (forall evs st,
        existsb types_address evs = false ->
        run (initialState lastOrderNumber created stamp) evs = Ok st ->
        deliveryAddress (formData st) = Some "Av. Camilo Henríquez 3692"
        /\ (handleSubmit (formData st)
            = [PreventDefault; OnSave (formData st); OnClose]
            <-> ~ empty_field (supplier (formData st))
                /\ ~ empty_field (paymentMethod (formData st))
                /\ items_of (formData st) <> []))
  /\ (forall st, exists st',
        step st (DeliveryAddressTyped "") = Ok st'
        /\ handleSubmit (formData st')
           = [PreventDefault; Alert required_fields_message]).
Proof.
  split; [reflexivity|].
  split; [intros [H|H]; discriminate|].
  split.
  - intros evs st Hevs Hrun.
    pose proof (run_deliveryAddress _ _ Hevs Hrun) as Ha. cbn in Ha.
    split; [exact Ha|].
    rewrite handleSubmit_accepts. unfold incomplete. rewrite Ha. split.
    + intros H. repeat split; intros H'; apply H; tauto.
    + intros (H1 & H2 & H3) [H|[[H|H]|[H|H]]]; try tauto; discriminate.
  - intros st. eexists. split.
    + unfold step. cbn [handle]. unfold deps_changed. cbn.
      destruct (supplier (formData st)) as [s|]; cbn;
        rewrite ?String.eqb_refl; reflexivity.
    + apply handleSubmit_rejects. right. left. right. reflexivity.
Qed.

(** The address after the session [example_events], through
    [initial_deliveryAddress]. *)
Lemma initial_deliveryAddress_witness :
  exists st,
    run (initialState None "" "") example_events = Ok st
    /\ deliveryAddress (formData st) = Some "Av. Camilo Henríquez 3692".
Proof.
  destruct (initial_deliveryAddress None "" "") as (_ & _ & H & _).
  assert (Hrun : exists st, run (initialState None "" "") example_events = Ok st)
    by (eexists; vm_compute; reflexivity).
  destruct Hrun as (st & Hrun).
  exists st. split; [exact Hrun|].
  apply (H example_events st); [reflexivity | exact Hrun].
Defined.

(** ** The order-number generator on every input *)

Section OrderNumbers.

Lemma length_append (a b : string) :
  String.length (a ++ b) = (String.length a + String.length b)%nat.
Proof. induction a as [|c a IH]; simpl; [reflexivity | rewrite IH; reflexivity]. Qed.

Lemma length_repeat_char (c : ascii) (n : nat) :
  String.length (JS.repeat_char c n) = n.
Proof. induction n as [|n IH]; simpl; [reflexivity | rewrite IH; reflexivity]. Qed.

Lemma padStart_length (n : nat) (c : ascii) (s : string) :
  String.length (JS.padStart n c s) = Nat.max n (String.length s).
Proof.
  unfold JS.padStart. rewrite length_append, length_repeat_char. lia.
Qed.

Lemma has_char_append (c : ascii) (a b : string) :
  has_char c (a ++ b) = has_char c a || has_char c b.
Proof.
  induction a as [|x a IH]; simpl; [reflexivity|].
  rewrite IH, orb_assoc. reflexivity.
Qed.

Lemma has_char_repeat_zero (k : nat) : has_char "-" (JS.repeat_char "0" k) = false.
Proof. induction k as [|k IH]; simpl; [reflexivity | exact IH]. Qed.

Lemma has_char_uint (d : Decimal.uint) :
  has_char "-" (NilEmpty.string_of_uint d) = false.
Proof. induction d; simpl; [reflexivity | assumption ..]. Qed.

Lemma append_assoc (a b c : string) : (a ++ b) ++ c = a ++ b ++ c.
Proof. induction a as [|x a IH]; simpl; [reflexivity | rewrite IH; reflexivity]. Qed.

(** Reading stops at the first character that is no digit. *)
Lemma read_digits_stop (rest : string) (acc : Z) :
  starts_with_digit rest = false ->
  JS.read_digits 10 rest true acc = Some acc.
Proof.
  destruct rest as [|c rest]; [reflexivity|].
  cbn [starts_with_digit JS.read_digits].
  destruct (JS.digit_value 10 c); [discriminate | reflexivity].
Qed.

Ltac read_digit :=
  cbn [NilEmpty.string_of_uint append JS.read_digits];
  match goal with
  | |- context [JS.digit_value 10 ?c] =>
      let v := eval vm_compute in (JS.digit_value 10 c) in
      change (JS.digit_value 10 c) with v; cbv iota
  end.

(** Reading the digits of [d] after a digit has been read. *)
Lemma read_digits_acc (d : Decimal.uint) (acc : positive) (rest : string) :
  starts_with_digit rest = false ->
  JS.read_digits 10 (NilEmpty.string_of_uint d ++ rest) true (Z.pos acc)
  = Some (Z.pos (Pos.of_uint_acc d acc)).
Proof.
  intros Hrest. revert acc; induction d; intros acc;
    [apply read_digits_stop, Hrest | ..];
    read_digit; cbn [Pos.of_uint_acc]; rewrite <- IHd; f_equal; lia.
Qed.

Lemma read_digits_zero (d : Decimal.uint) (rest : string) :
  starts_with_digit rest = false ->
  JS.read_digits 10 (NilEmpty.string_of_uint d ++ rest) true 0
  = Some (Z.of_N (Pos.of_uint d)).
Proof.
  intros Hrest. induction d;
    [apply read_digits_stop, Hrest | ..];
    read_digit; cbn [Pos.of_uint Z.mul Z.add];
    [exact IHd | apply read_digits_acc, Hrest ..].
Qed.

Lemma read_digits_uint (d : Decimal.uint) (rest : string) :
  d <> Decimal.Nil ->
  starts_with_digit rest = false ->
  JS.read_digits 10 (NilEmpty.string_of_uint d ++ rest) false 0
  = Some (Z.of_N (Pos.of_uint d)).
Proof.
  intros Hd Hrest. destruct d; [congruence | ..];
    read_digit; cbn [Pos.of_uint Z.mul Z.add];
    [apply read_digits_zero, Hrest | apply read_digits_acc, Hrest ..].
Qed.

(** [parseInt] on a string that starts with a decimal digit, and not with a
    hexadecimal prefix: the digits are read in radix 10. *)
Lemma parseInt_string_decimal (c : ascii) (t : string) (v : Z) :
  JS.digit_value 10 c = Some v ->
  hex_prefix (String c t) = false ->
  JS.parseInt_string (String c t)
  = match JS.read_digits 10 (String c t) false 0 with
    | Some n => JS.Int n
    | None => JS.NaN
    end.
Proof.
  intros Hc Hx.
  destruct c as [[] [] [] [] [] [] [] []]; vm_compute in Hc; try discriminate Hc;
    unfold JS.parseInt_string; cbn [JS.trimStart];
    match goal with
    | |- context [JS.is_space ?c] =>
        let b := eval vm_compute in (JS.is_space c) in
        change (JS.is_space c) with b
    end; cbv iota;
    try (destruct (JS.read_digits 10 _ false 0) as [n|];
         [f_equal; destruct n; reflexivity | reflexivity]).
  destruct t as [|x t];
    [|destruct x as [[] [] [] [] [] [] [] []]; try discriminate Hx];
    cbv iota beta;
    destruct (JS.read_digits 10 _ false 0) as [n|];
    first [reflexivity | f_equal; destruct n; reflexivity].
Qed.

Lemma parseInt_string_uint (d : Decimal.uint) (rest : string) :
  d <> Decimal.Nil ->
  starts_with_digit rest = false ->
  hex_prefix (NilEmpty.string_of_uint d ++ rest) = false ->
  JS.parseInt_string (NilEmpty.string_of_uint d ++ rest)
  = JS.Int (Z.of_N (Pos.of_uint d)).
Proof.
  intros Hd Hrest Hx. pose proof (@read_digits_uint d rest Hd Hrest) as Hr.
  destruct d; [congruence | ..]; cbn [NilEmpty.string_of_uint append] in *;
    (erewrite parseInt_string_decimal;
     [rewrite Hr; reflexivity | vm_compute; reflexivity | exact Hx]).
Qed.

Lemma hex_prefix_uint (d : Decimal.uint) :
  hex_prefix (NilEmpty.string_of_uint d) = false.
Proof. destruct d as [|d|d|d|d|d|d|d|d|d|d]; try reflexivity; destruct d; reflexivity. Qed.

(** Zeros in front of a numeral. *)
Lemma repeat_zero_uint (k : nat) (d : Decimal.uint) :
  JS.repeat_char "0" k ++ NilEmpty.string_of_uint d
  = NilEmpty.string_of_uint (Nat.iter k Decimal.D0 d).
Proof.
  induction k as [|k IH]; [reflexivity|].
  change (Nat.iter (S k) Decimal.D0 d) with (Decimal.D0 (Nat.iter k Decimal.D0 d)).
  cbn [JS.repeat_char append NilEmpty.string_of_uint]. rewrite IH. reflexivity.
Qed.

Lemma of_uint_iter_zero (k : nat) (d : Decimal.uint) :
  Pos.of_uint (Nat.iter k Decimal.D0 d) = Pos.of_uint d.
Proof. induction k as [|k IH]; [reflexivity | exact IH]. Qed.

Lemma iter_zero_not_nil (k : nat) (d : Decimal.uint) :
  d <> Decimal.Nil -> Nat.iter k Decimal.D0 d <> Decimal.Nil.
Proof. intros Hd. destruct k; [exact Hd | discriminate]. Qed.

(** The decimal numeral of a natural number, as [String] prints it. *)
Lemma string_of_Z_uint (n : Z) :
  0 <= n ->
  exists d, d <> Decimal.Nil
            /\ JS.string_of_Z n = NilEmpty.string_of_uint d
            /\ Z.of_N (Pos.of_uint d) = n.
Proof.
  intros Hn. destruct n as [|p|p]; [| |lia].
  - exists (Decimal.D0 Decimal.Nil). repeat split. discriminate.
  - exists (Pos.to_uint p). split; [apply DecimalPos.Unsigned.to_uint_nonnil|].
    split.
    + unfold JS.string_of_Z. cbn [Z.to_int NilZero.string_of_int].
      unfold NilZero.string_of_uint.
      pose proof (DecimalPos.Unsigned.to_uint_nonnil p) as Hnil.
      destruct (Pos.to_uint p); [congruence | reflexivity ..].
    + rewrite DecimalPos.Unsigned.of_to. reflexivity.
Qed.

(** [parseInt] reads back what [String] prints, zeros in front or not, and
    stops at the text that follows. *)
Lemma parseInt_string_of_Z_rest (k : nat) (n : Z) (rest : string) :
  0 <= n ->
  starts_with_digit rest = false ->
  hex_prefix (JS.repeat_char "0" k ++ JS.string_of_Z n ++ rest) = false ->
  JS.parseInt_string (JS.repeat_char "0" k ++ JS.string_of_Z n ++ rest) = JS.Int n
  /\ has_char "-" (JS.repeat_char "0" k ++ JS.string_of_Z n) = false.
Proof.
  intros Hn Hrest. destruct (@string_of_Z_uint n Hn) as (d & Hd & -> & Hv).
  rewrite <- append_assoc, repeat_zero_uint. intros Hx. split.
  - rewrite parseInt_string_uint by (apply iter_zero_not_nil, Hd || assumption).
    rewrite of_uint_iter_zero, Hv. reflexivity.
  - apply has_char_uint.
Qed.

Lemma parseInt_string_of_Z (k : nat) (n : Z) :
  0 <= n ->
  JS.parseInt_string (JS.repeat_char "0" k ++ JS.string_of_Z n) = JS.Int n
  /\ has_char "-" (JS.repeat_char "0" k ++ JS.string_of_Z n) = false.
Proof.
  intros Hn.
  assert (E : JS.repeat_char "0" k ++ JS.string_of_Z n
              = JS.repeat_char "0" k ++ JS.string_of_Z n ++ "").
  { f_equal. induction (JS.string_of_Z n) as [|c s IH]; simpl;
      [reflexivity | rewrite <- IH; reflexivity]. }
  rewrite E at 1. apply parseInt_string_of_Z_rest; [exact Hn | reflexivity|].
  rewrite <- E. destruct (@string_of_Z_uint n Hn) as (d & _ & -> & _).
  rewrite repeat_zero_uint. apply hex_prefix_uint.
Qed.

Lemma generateOrderNumber_of_parse (a b : string) :
  has_char "-" a = false -> has_char "-" b = false ->
  generateOrderNumber (Some (a ++ String "-" b))
  = "ORD-" ++ JS.padStart 3 "0" (JS.String_ (JS.succ (JS.parseInt_string b))).
Proof.
  intros Ha Hb. unfold generateOrderNumber.
  assert (Ht : JS.truthy_string (a ++ String "-" b) = true)
    by (destruct a; reflexivity).
  rewrite Ht. cbn [negb].
  rewrite split_app_sep by exact Ha. rewrite split_no_sep by exact Hb.
  reflexivity.
Qed.

End OrderNumbers.

(** X1: whatever the previous order number, the generator returns ["ORD-"]
    followed by at least three characters. *)
Theorem generateOrderNumber_shape (lastOrderNumber : option string) :
  exists body,
    generateOrderNumber lastOrderNumber = "ORD-" ++ body
    /\ (3 <= String.length body)%nat.
Proof.
  unfold generateOrderNumber.
  destruct lastOrderNumber as [last|]; [|exists "001"; split; [reflexivity | simpl; lia]].
  destruct (negb (JS.truthy_string last)); [exists "001"; split; [reflexivity | simpl; lia]|].
  eexists. split; [reflexivity|]. rewrite padStart_length. lia.
Qed.

(** X2: on a previous number made of any text without ["-"], a ["-"], any
    count of zeros, the decimal numeral of [n] and any text that has no
    ["-"] and does not start with a digit, the generator returns ["ORD-"] and
    the numeral of [n + 1] padded with zeros to three digits, unless the text
    after the ["-"] starts with [0x] or [0X]: what stands before the ["-"],
    the zeros and what follows the digits are not kept. *)
Theorem generateOrderNumber_increments (a rest : string) (k : nat) (n : Z) :
  has_char "-" a = false ->
  has_char "-" rest = false ->
  starts_with_digit rest = false ->
  hex_prefix (JS.repeat_char "0" k ++ JS.string_of_Z n ++ rest) = false ->
  0 <= n < 2 ^ 53 ->
  generateOrderNumber
    (Some (a ++ String "-" (JS.repeat_char "0" k ++ JS.string_of_Z n ++ rest)))
  = "ORD-" ++ JS.padStart 3 "0" (JS.string_of_Z (n + 1)).
Proof.
  intros Ha Hrest Hdigit Hx [Hn _].
  destruct (@parseInt_string_of_Z_rest k n rest Hn Hdigit Hx) as [Hparse Hdash].
  rewrite generateOrderNumber_of_parse; [rewrite Hparse; reflexivity | exact Ha|].
  rewrite <- append_assoc, has_char_append, Hdash, Hrest. reflexivity.
Qed.

(** The generator at ["PED-0001234/B"], through
    [generateOrderNumber_increments]. *)
Lemma generateOrderNumber_increments_witness :
  generateOrderNumber (Some "PED-0001234/B") = "ORD-1235".
Proof.
  apply (@generateOrderNumber_increments "PED" "/B" 3 1234).
  - reflexivity.
  - reflexivity.
  - reflexivity.
  - reflexivity.
  - lia.
Defined.

(** X19: only the text between the first and the second ["-"] is read:
    whatever follows a second ["-"] does not change the result. *)
Theorem generateOrderNumber_second_dash (a b c : string) :
  has_char "-" a = false ->
  has_char "-" b = false ->
  generateOrderNumber (Some (a ++ String "-" (b ++ String "-" c)))
  = generateOrderNumber (Some (a ++ String "-" b)).
Proof.
  intros Ha Hb. rewrite (generateOrderNumber_of_parse a b) by assumption.
  unfold generateOrderNumber.
  assert (Ht : JS.truthy_string (a ++ String "-" (b ++ String "-" c)) = true)
    by (destruct a; reflexivity).
  rewrite Ht. cbn [negb].
  rewrite split_app_sep by exact Ha. rewrite split_app_sep by exact Hb.
  reflexivity.
Qed.

(** The generator at ["ORD-007-2024"], through
    [generateOrderNumber_second_dash]. *)
Lemma generateOrderNumber_second_dash_witness :
  generateOrderNumber (Some "ORD-007-2024") = generateOrderNumber (Some "ORD-007").
Proof.
  apply (@generateOrderNumber_second_dash "ORD" "007" "2024").
  - reflexivity.
  - reflexivity.
Defined.

(** X3: fed with its own results from an empty history, the generator
    numbers the orders in sequence: the [k]-th order number is ["ORD-"] and
    [k] padded with zeros to three digits. *)
Theorem nth_order_number_sequence (k : nat) :
  (0 < k)%nat -> Z.of_nat k <= 2 ^ 53 ->
  nth_order_number k
  = Some ("ORD-" ++ JS.padStart 3 "0" (JS.string_of_Z (Z.of_nat k))).
Proof.
  induction k as [|k IH]; [lia|].
  intros _ Hk. destruct k as [|k]; [reflexivity|].
  cbn [nth_order_number] in *. rewrite IH by lia.
  f_equal. unfold JS.padStart at 1.
  set (digits := JS.repeat_char "0"
                   (3 - String.length (JS.string_of_Z (Z.of_nat (S k))))
                 ++ JS.string_of_Z (Z.of_nat (S k))).
  destruct (parseInt_string_of_Z
              (3 - String.length (JS.string_of_Z (Z.of_nat (S k))))
              (n := Z.of_nat (S k))) as [Hparse Hdash]; [lia|].
  fold digits in Hparse, Hdash.
  change ("ORD-" ++ digits) with ("ORD" ++ String "-" digits).
  rewrite generateOrderNumber_of_parse by (reflexivity || exact Hdash).
  rewrite Hparse. cbn [JS.succ JS.String_]. do 3 f_equal. lia.
Qed.

(** The twelfth order number, through [nth_order_number_sequence]. *)
Lemma nth_order_number_sequence_witness :
  nth_order_number 12 = Some "ORD-012".
Proof.
  apply (nth_order_number_sequence (k := 12)).
  - lia.
  - lia.
Defined.

(** ** What the events keep *)

Section Frames.


(** The state after each event, slice by slice. *)
Lemma handle_frame (st st1 : FormState) (ev : event) :
  handle st ev = Ok st1 ->
  filteredProducts st1 = filteredProducts st
  /\ (products st1 = products st \/ exists l, ev = ProductsLoaded l)
  /\ (suppliers st1 = suppliers st \/ exists l, ev = SuppliersLoaded l)
  /\ fixed_fields (formData st1) = fixed_fields (formData st).
Proof.
  destruct ev; cbn [handle]; intros Hh;
    try (injection Hh as <-; repeat split; eauto; fail);
    try (destruct (JS.truthy_ostring (supplier (formData st)));
         injection Hh as <-; repeat split; eauto; fail).
  - destruct (addItem_disabled (newItem st)) eqn:E.
    + injection Hh as <-. repeat split; eauto.
    + injection Hh as <-.
      apply addItem_disabled_false in E as (n & q & p & Hni & Hn & Hq & Hp).
      rewrite (addItem_ok now st Hni Hn Hq Hp). repeat split; eauto.
  - unfold removeItem, removeItem_update in Hh.
    destruct (index_at (JS.or_list (items (formData st)) []) index);
      [|discriminate].
    injection Hh as <-. repeat split; eauto.
Qed.




Lemma step_fixed_fields (st st' : FormState) (ev : event) :
  step st ev = Ok st' ->
  fixed_fields (formData st') = fixed_fields (formData st).
Proof.
  intros Hstep. apply step_formData in Hstep as (st1 & Hh & ->).
  apply (handle_frame _ _ Hh).
Qed.

(** A property kept by every event holds at the end of every session. *)
Lemma run_invariant (P : FormState -> Prop) :
  (forall st ev st', P st -> step st ev = Ok st' -> P st') ->
  forall evs st st', P st -> run st evs = Ok st' -> P st'.
Proof.
  intros Hstep. induction evs as [|ev evs IH]; intros st st' HP Hrun.
  - injection Hrun as <-. exact HP.
  - cbn [run] in Hrun. destruct (step st ev) as [st1|e] eqn:Hs; [|discriminate].
    apply (IH st1 st'); [eapply Hstep; eassumption | exact Hrun].
Qed.




End Frames.

(** ** Invariants of a session *)



(** X5: no event changes the order number, the status, the creation time
    stamp or the status history: at every state of a session they are those
    of the initial draft, the generated number and one ["pending"] entry. *)
Theorem draft_fixed_fields
    (lastOrderNumber : option string) (created stamp : string)
    (evs : list event) (st : FormState) :
  run (initialState lastOrderNumber created stamp) evs = Ok st ->
  orderNumber (formData st) = Some (generateOrderNumber lastOrderNumber)
  /\ status (formData st) = Some "pending"
  /\ createdAt (formData st) = Some created
  /\ statusHistory (formData st) = Some [mkStatusEntry "pending" stamp].
Proof.
  intros Hrun.
  assert (H : fixed_fields (formData st)
              = fixed_fields (initialFormData lastOrderNumber created stamp)).
  { refine (@run_invariant
              (fun s => fixed_fields (formData s)
                        = fixed_fields (initialFormData lastOrderNumber created stamp))
              _ evs (initialState lastOrderNumber created stamp) st _ Hrun);
      [|reflexivity].
    intros s ev s' Hs Hstep. rewrite <- Hs. eapply step_fixed_fields, Hstep. }
  unfold fixed_fields in H. cbn in H. injection H as -> -> -> ->.
  repeat split.
Qed.

(** The fixed fields after [example_events], through [draft_fixed_fields]. *)
Lemma draft_fixed_fields_witness :
  exists st,
    run (initialState (Some "ORD-041") "c" "s") example_events = Ok st
    /\ orderNumber (formData st) = Some "ORD-042".
Proof.
  assert (Hrun : exists st,
             run (initialState (Some "ORD-041") "c" "s") example_events = Ok st)
    by (eexists; vm_compute; reflexivity).
  destruct Hrun as (st & Hrun). exists st. split; [exact Hrun|].
  apply (draft_fixed_fields (Some "ORD-041") "c" "s" example_events Hrun).
Defined.





(** ** The item list, event by event *)

Section ItemList.

Lemma ostring_eqb_refl (a : option string) : ostring_eqb a a = true.
Proof. destruct a as [x|]; simpl; [apply String.eqb_refl | reflexivity]. Qed.

(** An event that leaves the supplier and the catalogue alone runs no
    effect. *)
Lemma step_no_effect (st st1 : FormState) (ev : event) :
  handle st ev = Ok st1 ->
  supplier (formData st1) = supplier (formData st) ->
  (forall l, ev <> ProductsLoaded l) ->
  step st ev = Ok st1.
Proof.
  intros Hh Hs Hev. unfold step. rewrite Hh.
  assert (D : deps_changed st ev st1 = false).
  { unfold deps_changed. rewrite Hs, ostring_eqb_refl.
    destruct ev; try reflexivity. exfalso. eapply Hev. reflexivity. }
  rewrite D. reflexivity.
Qed.

Lemma step_remove_ok (st : FormState) (i : Z) (r : OrderItem) :
  0 <= i ->
  nth_error (items_of (formData st)) (Z.to_nat i) = Some r ->
  step st (RemoveItemClicked i)
  = Ok (with_formData st
          (with_items_total (formData st)
             (firstn (Z.to_nat i) (items_of (formData st))
              ++ skipn (S (Z.to_nat i)) (items_of (formData st)))
             (total_of (formData st) - subtotal r))).
Proof.
  intros Hi Hr. apply step_no_effect.
  - cbn [handle]. apply removeItem_ok; assumption.
  - reflexivity.
  - discriminate.
Qed.

Lemma length_remove_index (A : Type) (l : list A) (k : nat) :
  (k < List.length l)%nat ->
  (List.length (firstn k l ++ skipn (S k) l) + 1 = List.length l)%nat.
Proof.
  revert k; induction l as [|x l IH]; intros k Hk; simpl in Hk; [lia|].
  destruct k as [|k]; [cbn [firstn skipn app List.length]; lia|].
  change (skipn (S (S k)) (x :: l)) with (skipn (S k) l).
  change (firstn (S k) (x :: l)) with (x :: firstn k l).
  cbn [app List.length]. specialize (IH k). lia.
Qed.

Lemma removeButtons_range (o : Order) (i : Z) :
  In i (removeButtons o) <-> 0 <= i < Z.of_nat (List.length (items_of o)).
Proof.
  unfold removeButtons, items_of. destruct (items o) as [l|].
  - rewrite in_map_iff. split.
    + intros (k & <- & Hk). apply in_seq in Hk. lia.
    + intros Hi. exists (Z.to_nat i). split; [lia|]. apply in_seq. lia.
  - simpl. split; [intros [] | lia].
Qed.

End ItemList.




(** X10: the remove buttons of the item list pass exactly the indices of
    the list, and a click on any of them succeeds and leaves one item fewer. *)
Theorem remove_buttons_succeed (st : FormState) (i : Z) :
  (In i (removeButtons (formData st))
   <-> 0 <= i < Z.of_nat (List.length (items_of (formData st))))
  /\ (In i (removeButtons (formData st)) ->
      exists st',
        step st (RemoveItemClicked i) = Ok st'
        /\ (List.length (items_of (formData st')) + 1
            = List.length (items_of (formData st)))%nat).
Proof.
  split; [apply removeButtons_range|].
  intros Hin. apply removeButtons_range in Hin.
  destruct (index_at_in_range (items_of (formData st)) Hin) as (r & _ & Hr).
  eexists. split; [apply (step_remove_ok st (proj1 Hin) Hr)|].
  unfold items_of at 1. cbn [formData items with_formData with_items_total].
  apply length_remove_index. lia.
Qed.

(** The button of the one item of [staged_example], through
    [remove_buttons_succeed]. *)
Lemma remove_buttons_succeed_witness :
  exists st',
    step staged_example (RemoveItemClicked 0) = Ok st'
    /\ (List.length (items_of (formData st')) + 1 = 1)%nat.
Proof.
  apply (proj2 (remove_buttons_succeed staged_example 0)).
  left. reflexivity.
Defined.

(** ** The pickers *)

Section Pickers.

Lemma append_empty_r (s : string) : s ++ "" = s.
Proof. induction s as [|c s IH]; simpl; [reflexivity | rewrite IH; reflexivity]. Qed.

Lemma includes_refl (s : string) : JS.includes s s = true.
Proof.
  apply includes_spec. exists "", "". simpl. rewrite append_empty_r. reflexivity.
Qed.



Lemma find_first (A : Type) (f : A -> bool) (l : list A) (x : A) :
  In x l -> f x = true ->
  exists y, find f l = Some y /\ In y l /\ f y = true.
Proof.
  intros Hin Hf. destruct (find f l) as [y|] eqn:E.
  - exists y. apply find_some in E as [H1 H2]. repeat split; assumption.
  - pose proof (find_none f l E x Hin) as H. congruence.
Qed.

(** The state after a supplier is selected, effect included. *)
Lemma step_supplier_selected (st : FormState) (v : string) :
  exists st',
    step st (SupplierSelected v) = Ok st'
    /\ formData st' = with_supplier (formData st) (Some v)
    /\ suppliers st' = suppliers st
    /\ supplierSearch st' = v
    /\ showSupplierDropdown st' = false.
Proof.
  unfold step. cbn [handle].
  destruct (deps_changed st (SupplierSelected v) (handleSupplierSelect st v)).
  - eexists. split; [reflexivity|].
    rewrite supplierEffect_formData.
    unfold supplierEffect, handleSupplierSelect.
    cbn [formData with_showSupplierDropdown with_supplierSearch with_formData
           with_supplier supplier].
    destruct (JS.truthy_string v); repeat split.
  - eexists. split; [reflexivity|]. repeat split.
Qed.

Lemma step_supplier_typed (st : FormState) (v : string) :
  exists st',
    step st (SupplierTyped v) = Ok st'
    /\ formData st' = with_supplier (formData st) (Some v)
    /\ supplierSearch st' = v.
Proof.
  unfold step. cbn [handle].
  destruct (deps_changed st (SupplierTyped v) (onSupplierChange st v)).
  - eexists. split; [reflexivity|].
    rewrite supplierEffect_formData.
    unfold supplierEffect, onSupplierChange.
    cbn [formData with_showSupplierDropdown with_supplierSearch with_formData
           with_supplier supplier].
    destruct (JS.truthy_string v); repeat split.
  - eexists. split; [reflexivity|]. repeat split.
Qed.

End Pickers.

(** X11: with an empty search string a picker keeps every entry: the
    supplier picker lists the whole supplier list, the product picker all the
    candidates of the supplier. *)
Theorem empty_search_keeps_all (st : FormState) :
  filteredSuppliers (with_supplierSearch st "") = suppliers st
  /\ searchFilteredProducts (with_productSearch st "") = filteredProducts st.
Proof.
  split.
  - unfold filteredSuppliers. cbn. apply filter_all. intros s. apply includes_empty.
  - unfold searchFilteredProducts. cbn. apply filter_all. intros p. apply includes_empty.
Qed.


(** X13: after a supplier of the list is selected from the dropdown, the
    search input holds its name, the dropdown is closed, the supplier is
    still among the filtered suppliers, and, its name not being empty, the
    details shown are those of a supplier of the list with that very name. *)
Theorem selected_supplier_shown (st : FormState) (s : Supplier) :
  In s (suppliers st) ->
  exists st',
    step st (SupplierSelected (s_name s)) = Ok st'
    /\ supplierSearch st' = s_name s
    /\ showSupplierDropdown st' = false
    /\ In s (filteredSuppliers st')
    /\ (s_name s <> "" ->
        exists shown, selectedSupplier st' = Some shown
                      /\ In shown (suppliers st)
                      /\ s_name shown = s_name s).
Proof.
  intros Hin.
  destruct (step_supplier_selected st (s_name s)) as (st' & Hs & Hf & Hl & Hq & Hd).
  exists st'. split; [exact Hs|]. split; [exact Hq|]. split; [exact Hd|]. split.
  - unfold filteredSuppliers. rewrite Hl, Hq. apply filter_In.
    split; [exact Hin | apply includes_refl].
  - intros Hne. unfold selectedSupplier. rewrite Hf, Hl.
    cbn [supplier with_supplier].
    destruct (s_name s) as [|c n] eqn:E; [congruence|]. cbn [JS.truthy_string].
    destruct (find_first (fun x => String.eqb (s_name x) (String c n)) _ s Hin)
      as (y & Hy & Hyin & Hyn); [rewrite E; apply String.eqb_refl|].
    exists y. split; [exact Hy|]. split; [exact Hyin|].
    apply String.eqb_eq in Hyn. exact Hyn.
Qed.

(** Selecting the second supplier of [picker_example], through
    [selected_supplier_shown]. *)
Lemma selected_supplier_shown_witness :
  exists st',
    step (picker_example "") (SupplierSelected "Ace Hardware") = Ok st'
    /\ supplierSearch st' = "Ace Hardware"
    /\ In (supplier_named "Ace Hardware") (filteredSuppliers st').
Proof.
  destruct (@selected_supplier_shown (picker_example "")
              (supplier_named "Ace Hardware"))
    as (st' & H1 & H2 & _ & H4 & _).
  - right. left. reflexivity.
  - exists st'. split; [exact H1|]. split; [exact H2 | exact H4].
Defined.



(** X15: selecting a candidate of the product picker stages its name and
    price, keeps the staged quantity, closes the dropdown and fills the
    search input with the name, under which the product is still a
    candidate. *)
Theorem selected_product_staged (st : FormState) (p : Product) :
  In p (filteredProducts st) ->
  exists st',
    step st (ProductSelected p) = Ok st'
    /\ newItem st' = mkNewItem (Some (p_name p)) (ni_quantity (newItem st))
                               (Some (p_price p))
    /\ productSearch st' = p_name p
    /\ showProductDropdown st' = false
    /\ formData st' = formData st
    /\ In p (searchFilteredProducts st').
Proof.
  intros Hin. exists (handleProductSelect st p).
  split; [apply step_no_effect; [reflexivity | reflexivity | discriminate]|].
  repeat (split; [reflexivity|]).
  unfold searchFilteredProducts. cbn. apply filter_In.
  split; [exact Hin | apply includes_refl].
Qed.

(** Selecting [azucar] among the candidates of ["dulces sa"], through
    [selected_product_staged]. *)
Lemma selected_product_staged_witness :
  exists st',
    step (with_filteredProducts staged_harina [azucar]) (ProductSelected azucar)
    = Ok st'
    /\ newItem st' = mkNewItem (Some "Azucar") (Some 1) (Some 900)
    /\ In azucar (searchFilteredProducts st').
Proof.
  destruct (@selected_product_staged
              (with_filteredProducts staged_harina [azucar]) azucar)
    as (st' & H1 & H2 & _ & _ & _ & H6).
  - left. reflexivity.
  - exists st'. split; [exact H1|]. split; [exact H2 | exact H6].
Defined.





(** X18: changing the supplier, by typing or by selection, clears the
    composer only: the items and the total of the draft, its delivery
    address, payment method and notes stay, so the items committed under the
    former supplier remain in the order. *)
Theorem supplier_change_keeps_items (st : FormState) (v : string) (ev : event) :
  ev = SupplierTyped v \/ ev = SupplierSelected v ->
  exists st',
    step st ev = Ok st'
    /\ supplier (formData st') = Some v
    /\ items (formData st') = items (formData st)
    /\ total (formData st') = total (formData st)
    /\ deliveryAddress (formData st') = deliveryAddress (formData st)
    /\ paymentMethod (formData st') = paymentMethod (formData st)
    /\ notes (formData st') = notes (formData st).
Proof.
  intros [-> | ->].
  - destruct (step_supplier_typed st v) as (st' & Hs & Hf & _).
    exists st'. split; [exact Hs|]. rewrite Hf. repeat split.
  - destruct (step_supplier_selected st v) as (st' & Hs & Hf & _).
    exists st'. split; [exact Hs|]. rewrite Hf. repeat split.
Qed.

(** Selecting another supplier on the one-item draft [staged_example],
    through [supplier_change_keeps_items]. *)
Lemma supplier_change_keeps_items_witness :
  exists st',
    step staged_example (SupplierSelected "Dulces SA") = Ok st'
    /\ supplier (formData st') = Some "Dulces SA"
    /\ items (formData st') = Some [mkOrderItem "1" "Harina" 2 100 200].
Proof.
  destruct (@supplier_change_keeps_items staged_example "Dulces SA"
              (SupplierSelected "Dulces SA"))
    as (st' & H1 & H2 & H3 & _); [right; reflexivity|].
  exists st'. split; [exact H1|]. split; [exact H2 | exact H3].
Defined.
